(** * english-mcp: the textstat helper script

    A shallow embedding of [src/utils/textstat-helper.py] and the
    properties of its observable contract: what is written to standard
    output and which exit status the process ends with, for every
    content of standard input.

    The script is a format adapter.  Two pieces of code it calls are not
    part of the repository: [json.load] of the Python standard library
    and the metric functions of the [textstat] package.  Both are taken
    as parameters of the development ([json_load] and [textstat] in
    Section [Adapter]); everything the script itself does (the guards,
    the dictionary display, the [try]/[except], the two [json.dump]
    calls and the two [sys.exit] calls) is modelled as written. *)

From Stdlib Require Import List ZArith NArith Bool String Ascii Lia.
From Stdlib Require Import Strings.Byte.
From Stdlib Require Import Floats.SpecFloat.
Import ListNotations.

Set Warnings "-register-all".

(* ===================================================================== *)
(** ** Python values *)
(* ===================================================================== *)

Module Py.

(** A Python [str] is a sequence of Unicode code points. *)
Definition pystr := list N.

(** String literals of the source are ASCII. *)
Definition lit (s : string) : pystr :=
  List.map N_of_ascii (list_ascii_of_string s).

Fixpoint pystr_eqb (a b : pystr) : bool :=
  match a, b with
  | [], [] => true
  | x :: a', y :: b' => N.eqb x y && pystr_eqb a' b'
  | _, _ => false
  end.

(** The values [json.load] can produce and [json.dump] can write:
    [None], [bool], [int], [float] (IEEE binary64), [str], [list] and
    [dict] with [str] keys.  A [dict] keeps its keys in insertion
    order, which is the order [json.dump] writes them in. *)
Inductive pyval : Type :=
| PyNone
| PyBool (b : bool)
| PyInt (z : Z)
| PyFloat (f : spec_float)
| PyStr (s : pystr)
| PyList (l : list pyval)
| PyDict (d : list (pystr * pyval)).

Definition dict := list (pystr * pyval).

(** [d.get(k)] *)
Fixpoint dict_get (k : pystr) (d : dict) : option pyval :=
  match d with
  | [] => None
  | (k', v) :: d' => if pystr_eqb k k' then Some v else dict_get k d'
  end.

(** [d[k] = v]: an existing key keeps its position and takes the new
    value, a new key goes to the end. *)
Fixpoint dict_set (k : pystr) (v : pyval) (d : dict) : dict :=
  match d with
  | [] => [(k, v)]
  | (k', v') :: d' =>
      if pystr_eqb k k' then (k', v) :: d' else (k', v') :: dict_set k v d'
  end.

Definition dict_keys (d : dict) : list pystr := List.map fst d.

(** Truth value testing, the operand of [not]. *)
Definition truthy (v : pyval) : bool :=
  match v with
  | PyNone => false
  | PyBool b => b
  | PyInt z => negb (Z.eqb z 0)
  | PyFloat (S754_zero _) => false
  | PyFloat _ => true
  | PyStr s => match s with [] => false | _ => true end
  | PyList l => match l with [] => false | _ => true end
  | PyDict d => match d with [] => false | _ => true end
  end.

(** [type(v).__name__] *)
Definition type_name (v : pyval) : string :=
  match v with
  | PyNone => "NoneType"
  | PyBool _ => "bool"
  | PyInt _ => "int"
  | PyFloat _ => "float"
  | PyStr _ => "str"
  | PyList _ => "list"
  | PyDict _ => "dict"
  end.

(** [str.isspace] on one code point: the characters [str.strip()]
    removes when called without argument. *)
Definition isspace (c : N) : bool :=
  ((9 <=? c) && (c <=? 13) || (28 <=? c) && (c <=? 32)
   || (c =? 133) || (c =? 160) || (c =? 5760)
   || (8192 <=? c) && (c <=? 8202)
   || (c =? 8232) || (c =? 8233) || (c =? 8239) || (c =? 8287)
   || (c =? 12288))%N.

Fixpoint lstrip (s : pystr) : pystr :=
  match s with
  | [] => []
  | c :: s' => if isspace c then lstrip s' else s
  end.

Definition rstrip (s : pystr) : pystr := rev (lstrip (rev s)).

(** [s.strip()] *)
Definition strip (s : pystr) : pystr := rstrip (lstrip s).

(** An exception object, as far as the script observes it:
    [type(e).__name__] and [str(e)]. *)
Record exn : Type := mkExn { exn_name : pystr; exn_str : pystr }.

Definition ValueError (msg : string) : exn := mkExn (lit "ValueError") (lit msg).

(** The [AttributeError] of an attribute lookup that fails. *)
Definition AttributeError (v : pyval) (attr : string) : exn :=
  mkExn (lit "AttributeError")
        (lit ("'" ++ type_name v ++ "' object has no attribute '" ++ attr ++ "'")).

(** What a [raise] propagates.  [sys.exit] raises [SystemExit], which
    derives from [BaseException] and not from [Exception]: a handler
    [except Exception] lets it through. *)
Inductive raised : Type :=
| Exception (e : exn)
| SystemExit (status : Z).

Inductive completion (A : Type) : Type :=
| Returns (a : A)
| Raises (r : raised).

Arguments Returns {A} a.
Arguments Raises {A} r.

(** How the interpreter process ends. *)
Inductive termination : Type :=
| Exit (status : Z)
| Unhandled (e : exn).

End Py.
Import Py.

(* ===================================================================== *)
(** ** The textstat interface *)
(* ===================================================================== *)

(** The calls the script makes into [textstat], each with the keyword
    arguments it passes. *)
Inductive metric : Type :=
| flesch_reading_ease
| flesch_kincaid_grade
| gunning_fog
| smog_index
| automated_readability_index
| coleman_liau_index
| linsear_write_formula
| dale_chall_readability_score
| difficult_words
| text_standard (float_output : bool)
| reading_time (ms_per_char : spec_float)
| syllable_count
| lexicon_count (removepunct : bool)
| sentence_count
| char_count (ignore_spaces : bool)
| letter_count (ignore_spaces : bool)
| polysyllabcount
| monosyllabcount.

Definition spec_float_eq_dec (x y : spec_float) : {x = y} + {x <> y}.
Proof.
  decide equality; try apply bool_dec; try apply Z.eq_dec; apply Pos.eq_dec.
Defined.

Definition metric_eq_dec (x y : metric) : {x = y} + {x <> y}.
Proof.
  decide equality; try apply bool_dec; apply spec_float_eq_dec.
Defined.

(** The float literal [14.69]: the binary64 number nearest to it,
    8269734815759073 * 2^-49. *)
Definition ms_per_char_14_69 : spec_float :=
  S754_finite false 8269734815759073 (-49).

(** The dictionary display of [analyze_text], lines 20 to 38 of the
    source, one entry per line and in the order written. *)
Definition metrics_display : list (string * metric) :=
  [ ("flesch_reading_ease", flesch_reading_ease);
    ("flesch_kincaid_grade", flesch_kincaid_grade);
    ("gunning_fog", gunning_fog);
    ("smog_index", smog_index);
    ("automated_readability_index", automated_readability_index);
    ("coleman_liau_index", coleman_liau_index);
    ("linsear_write_formula", linsear_write_formula);
    ("dale_chall_readability_score", dale_chall_readability_score);
    ("difficult_words", difficult_words);
    ("linsear_write_formula", linsear_write_formula);
    ("text_standard", text_standard false);
    ("reading_time", reading_time ms_per_char_14_69);
    ("syllable_count", syllable_count);
    ("lexicon_count", lexicon_count true);
    ("sentence_count", sentence_count);
    ("char_count", char_count true);
    ("letter_count", letter_count true);
    ("polysyllabcount", polysyllabcount);
    ("monosyllabcount", monosyllabcount) ]%string.

(** The 18 metric names of the result mapping. *)
Definition metric_keys : list pystr :=
  List.map lit
    [ "flesch_reading_ease"; "flesch_kincaid_grade"; "gunning_fog";
      "smog_index"; "automated_readability_index"; "coleman_liau_index";
      "linsear_write_formula"; "dale_chall_readability_score";
      "difficult_words"; "text_standard"; "reading_time";
      "syllable_count"; "lexicon_count"; "sentence_count"; "char_count";
      "letter_count"; "polysyllabcount"; "monosyllabcount" ]%string.


(** One call into [textstat], as logged: the function with its keyword
    arguments, the text passed, and what the call returned or raised. *)
Record call : Type := mkCall {
  call_metric : metric;
  call_text : pyval;
  call_result : exn + pyval
}.

(** The error envelope written by the handler of [main]. *)
Definition error_envelope (e : exn) : pyval :=
  PyDict [ (lit "error", PyStr (exn_str e)); (lit "type", PyStr (exn_name e)) ].

(** The value of [input_data.get('text', '')] on a decoded object. *)
Definition text_field (d : dict) : pyval :=
  match dict_get (lit "text") d with
  | Some v => v
  | None => PyStr []
  end.

(** The keys of a dictionary after [d[k] = v], and after a whole
    display has been evaluated into it. *)
Fixpoint keys_set (k : pystr) (ks : list pystr) : list pystr :=
  match ks with
  | [] => [k]
  | k' :: ks' => if pystr_eqb k k' then k' :: ks' else k' :: keys_set k ks'
  end.

Definition display_keys (entries : list (string * metric)) (ks : list pystr)
  : list pystr :=
  fold_left (fun ks e => keys_set (lit (fst e)) ks) entries ks.

(** The calls of a display, in evaluation order. *)
Definition display_calls (entries : list (string * metric)) : list metric :=
  List.map snd entries.

(** The shape of the log of a display evaluated on [text]: the calls
    of its entries in the order written, each on [text] and each
    returning, up to the end of the display ([true]) or up to the first
    call that raises ([false]). *)
Inductive display_log (text : pyval)
  : list (string * metric) -> list call -> bool -> Prop :=
| log_end : display_log text [] [] true
| log_raise k m rest e :
    display_log text ((k, m) :: rest) [mkCall m text (inl e)] false
| log_return k m rest v log b :
    display_log text rest log b ->
    display_log text ((k, m) :: rest) (mkCall m text (inr v) :: log) b.

(** The dictionary a display builds from the values its calls
    returned, read back from the log. *)
Fixpoint replay (entries : list (string * metric)) (log : list call) (acc : dict)
  : dict :=
  match entries, log with
  | (k, _) :: entries', c :: log' =>
      match call_result c with
      | inr v => replay entries' log' (dict_set (lit k) v acc)
      | inl _ => acc
      end
  | _, _ => acc
  end.

(* ===================================================================== *)
(** ** Sample inputs and stand-ins for the external code *)
(* ===================================================================== *)

(** Concrete runs need a concrete [json.load] and a concrete library.
    The definitions of this module are stand-ins for them: a decoder
    that knows the sample inputs below and gives for each of them the
    value Python's [json.load] gives, and libraries whose numbers are
    not those of [textstat].  They serve the examples only; every
    theorem about the script holds for any decoder and any library. *)
Module Sample.

Definition quoted (s : string) : list byte :=
  x22 :: list_byte_of_string s ++ [x22].

(** The bytes of a JSON object with the one key [text], whose value
    is written [value]. *)
Definition object_with_text (value : list byte) : list byte :=
  list_byte_of_string "{" ++ quoted "text" ++ list_byte_of_string ": "
    ++ value ++ list_byte_of_string "}".

(** The same for a string value that needs no escaping. *)
Definition text_object (s : string) : list byte := object_with_text (quoted s).

Definition fox : string := "The quick brown fox jumps over the lazy dog.".

Definition stdin_fox : list byte := text_object fox.
Definition stdin_empty_text : list byte := text_object EmptyString.
Definition stdin_blank_text : list byte := text_object "   ".
Definition stdin_null_text : list byte := object_with_text (list_byte_of_string "null").
Definition stdin_zero_text : list byte := object_with_text (list_byte_of_string "0").
Definition stdin_false_text : list byte := object_with_text (list_byte_of_string "false").
Definition stdin_array_text : list byte := object_with_text (list_byte_of_string "[]").
Definition stdin_object_text : list byte := object_with_text (list_byte_of_string "{}").
Definition stdin_number_text : list byte := object_with_text (list_byte_of_string "42").
Definition stdin_no_key : list byte := list_byte_of_string "{}".
Definition stdin_array : list byte := list_byte_of_string "[1, 2]".
Definition stdin_not_json : list byte := list_byte_of_string "not json".

Fixpoint bytes_eqb (a b : list byte) : bool :=
  match a, b with
  | [], [] => true
  | x :: a', y :: b' => Byte.eqb x y && bytes_eqb a' b'
  | _, _ => false
  end.

(** What [json.load] returns on the sample inputs that are JSON. *)
Definition decoded : list (list byte * pyval) :=
  [ (stdin_fox, PyDict [(lit "text", PyStr (lit fox))]);
    (stdin_empty_text, PyDict [(lit "text", PyStr [])]);
    (stdin_blank_text, PyDict [(lit "text", PyStr (lit "   "))]);
    (stdin_null_text, PyDict [(lit "text", PyNone)]);
    (stdin_zero_text, PyDict [(lit "text", PyInt 0)]);
    (stdin_false_text, PyDict [(lit "text", PyBool false)]);
    (stdin_array_text, PyDict [(lit "text", PyList [])]);
    (stdin_object_text, PyDict [(lit "text", PyDict [])]);
    (stdin_number_text, PyDict [(lit "text", PyInt 42)]);
    (stdin_no_key, PyDict []);
    (stdin_array, PyList [PyInt 1; PyInt 2]) ].

Fixpoint lookup (input : list byte) (table : list (list byte * pyval))
  : option pyval :=
  match table with
  | [] => None
  | (b, v) :: rest => if bytes_eqb input b then Some v else lookup input rest
  end.

Definition JSONDecodeError : exn :=
  mkExn (lit "JSONDecodeError") (lit "Expecting value: line 1 column 1 (char 0)").

(** [json.load] on the sample inputs.  On any other input the
    stand-in answers as for [stdin_not_json]. *)
Definition json_load (input : list byte) : exn + pyval :=
  match lookup input decoded with
  | Some v => inr v
  | None => inl JSONDecodeError
  end.

(** A library that answers every call on a [str]: 0.0 for the
    scores, the length of the text for the counts and a fixed label
    for [text_standard].  Its state counts the calls served. *)
Definition value (m : metric) (s : pystr) : pyval :=
  match m with
  | text_standard _ => PyStr (lit "0th and 1st grade")
  | difficult_words | syllable_count | lexicon_count _ | sentence_count
  | char_count _ | letter_count _ | polysyllabcount | monosyllabcount =>
      PyInt (Z.of_nat (List.length s))
  | _ => PyFloat (S754_zero false)
  end.

Definition textstat (m : metric) (text : pyval) (served : nat)
  : (exn + pyval) * nat :=
  (match text with
   | PyStr s => inr (value m s)
   | _ => inl (mkExn (lit "TypeError") (lit "expected string or bytes-like object"))
   end, S served).

(** The same library with a [smog_index] that fails. *)
Definition ZeroDivisionError : exn :=
  mkExn (lit "ZeroDivisionError") (lit "float division by zero").

Definition failing_textstat (m : metric) (text : pyval) (served : nat)
  : (exn + pyval) * nat :=
  match m with
  | smog_index => (inl ZeroDivisionError, S served)
  | _ => textstat m text served
  end.

End Sample.

(** A library with a visible memory: every call returns the number of
    calls served before it. *)
Module Counting.

Definition textstat (m : metric) (text : pyval) (served : nat)
  : (exn + pyval) * nat :=
  (inr (PyInt (Z.of_nat served)), S served).

End Counting.

(* ===================================================================== *)
(** ** The script *)
(* ===================================================================== *)

Section Adapter.

(** The internal state of the [textstat] module (caches, language
    setting): whatever a call may read and leave behind. *)
Variable lib_state : Type.

(** [json.load] applied to the content of standard input: the decoded
    value, or the exception it raises. *)
Variable json_load : list byte -> exn + pyval.

(** [textstat.<metric>(text, ...)]: the value returned or the
    exception raised, and the state of the module after the call. *)
Variable textstat : metric -> pyval -> lib_state -> (exn + pyval) * lib_state.

(** The process as the script sees it.  [stdout] holds the documents
    written by [json.dump], oldest first; [calls] logs the calls made
    into [textstat]. *)
Record process : Type := mkProcess {
  stdin : list byte;
  stdout : list pyval;
  lib : lib_state;
  calls : list call
}.

(** Computations: they read and change the process and either return
    or raise. *)
Definition M (A : Type) : Type := process -> completion A * process.

Definition ret {A} (a : A) : M A := fun p => (Returns a, p).

Definition bind {A B} (m : M A) (k : A -> M B) : M B :=
  fun p => match m p with
           | (Returns a, p') => k a p'
           | (Raises r, p') => (Raises r, p')
           end.

Definition raise {A} (e : exn) : M A := fun p => (Raises (Exception e), p).

(** [sys.exit(status)] *)
Definition sys_exit {A} (status : Z) : M A :=
  fun p => (Raises (SystemExit status), p).

(** [try: body / except Exception as e: handler e] *)
Definition try_except {A} (body : M A) (handler : exn -> M A) : M A :=
  fun p => match body p with
           | (Raises (Exception e), p') => handler e p'
           | other => other
           end.

Notation "x <- m ;; k" := (bind m (fun x => k))
  (at level 61, m at next level, right associativity).
Notation "m ;; k" := (bind m (fun _ => k))
  (at level 61, right associativity).

(** [json.load(sys.stdin)] *)
Definition json_load_stdin : M pyval :=
  fun p => match json_load (stdin p) with
           | inl e => (Raises (Exception e), p)
           | inr v => (Returns v, p)
           end.

(** [json.dump(v, sys.stdout)] *)
Definition json_dump (v : pyval) : M unit :=
  fun p => (Returns tt,
            mkProcess (stdin p) (stdout p ++ [v]) (lib p) (calls p)).

(** A call into [textstat]. *)
Definition call_textstat (m : metric) (text : pyval) : M pyval :=
  fun p => let '(r, s) := textstat m text (lib p) in
           let p' := mkProcess (stdin p) (stdout p) s
                               (calls p ++ [mkCall m text r]) in
           match r with
           | inl e => (Raises (Exception e), p')
           | inr v => (Returns v, p')
           end.

(** [v.get(key, default)] *)
Definition py_get (v : pyval) (key : string) (default : pyval) : M pyval :=
  match v with
  | PyDict d => match dict_get (lit key) d with
                | Some x => ret x
                | None => ret default
                end
  | _ => raise (AttributeError v "get")
  end.

(** [v.strip()] *)
Definition py_strip (v : pyval) : M pyval :=
  match v with
  | PyStr s => ret (PyStr (strip s))
  | _ => raise (AttributeError v "strip")
  end.

(** Evaluation of a dictionary display whose values are [textstat]
    calls on [text]: entries are evaluated and inserted in order. *)
Fixpoint eval_display (entries : list (string * metric)) (text : pyval)
         (acc : dict) : M dict :=
  match entries with
  | [] => ret acc
  | (k, m) :: rest =>
      v <- call_textstat m text ;;
      eval_display rest text (dict_set (lit k) v acc)
  end.

Definition analyze_text (text : pyval) : M pyval :=
  empty <- (if negb (truthy text) then ret true
            else stripped <- py_strip text ;; ret (negb (truthy stripped))) ;;
  if (empty : bool) then raise (ValueError "Text cannot be empty")
  else d <- eval_display metrics_display text [] ;; ret (PyDict d).

Definition main : M unit :=
  try_except
    (input_data <- json_load_stdin ;;
     text <- py_get input_data "text" (PyStr []) ;;
     (if negb (truthy text)
      then raise (ValueError "No text provided in input JSON")
      else ret tt) ;;
     results <- analyze_text text ;;
     json_dump results ;;
     sys_exit 0)
    (fun e =>
       let error_output := error_envelope e in
       json_dump error_output ;;
       sys_exit 1).

(** One run of the script: the process starts with the given standard
    input and library state, nothing written and nothing called.  A
    [SystemExit] that reaches the top ends the process with its
    status, another exception is an unhandled one, and falling off
    the end of the module is status 0. *)
Definition start (input : list byte) (s : lib_state) : process :=
  mkProcess input [] s [].

Definition finish (c : completion unit) : termination :=
  match c with
  | Returns _ => Exit 0
  | Raises (SystemExit status) => Exit status
  | Raises (Exception e) => Unhandled e
  end.

Definition run (input : list byte) (s : lib_state) : termination * list pyval :=
  let '(c, p) := main (start input s) in (finish c, stdout p).

(** The calls [run] made into [textstat]. *)
Definition run_calls (input : list byte) (s : lib_state) : list call :=
  calls (snd (main (start input s))).

(** The process after one call into the library that gave [r] and
    left the library in state [s']. *)
Definition called (p : process) (m : metric) (text : pyval)
           (r : exn + pyval) (s' : lib_state) : process :=
  mkProcess (stdin p) (stdout p) s' (calls p ++ [mkCall m text r]).

(** Every run that does not get past the guards ends with status 1,
    one error envelope written and no call made. *)
Definition rejected (input : list byte) (s : lib_state) (e : exn) : Prop :=
  run input s = (Exit 1, [error_envelope e]) /\ run_calls input s = [].

(** The two outcomes of a run that reaches the display. *)
Definition emitted (input : list byte) (s : lib_state) (results : dict) : Prop :=
  run input s = (Exit 0, [PyDict results]) /\
  dict_keys results = metric_keys /\
  List.map call_metric (run_calls input s) = display_calls metrics_display /\
  Forall (fun c => exists v, call_result c = inr v) (run_calls input s).

Definition failed (input : list byte) (s : lib_state) (e : exn) : Prop :=
  run input s = (Exit 1, [error_envelope e]) /\
  forall c e', In c (run_calls input s) -> call_result c = inl e' -> e' = e.

(* =================================================================== *)
(** ** Strings and dictionaries *)
(* =================================================================== *)

Lemma pystr_eqb_eq (a b : pystr) : pystr_eqb a b = true <-> a = b.
Proof.
  revert b; induction a as [|x a IH]; intros [|y b]; simpl;
    try (split; [discriminate | discriminate]); try tauto.
  rewrite andb_true_iff, N.eqb_eq, IH.
  split; [intros [-> ->]; reflexivity | intros H; inversion H; auto].
Qed.

Lemma lstrip_spaces (s : pystr) : forallb isspace s = true -> lstrip s = [].
Proof.
  induction s as [|c s IH]; simpl; [reflexivity|].
  rewrite andb_true_iff; intros [Hc Hs]; rewrite Hc; auto.
Qed.

(** What [lstrip] leaves is empty or starts with a character that is
    not white space. *)
Lemma lstrip_head (s : pystr) :
  lstrip s = [] \/ exists c t, lstrip s = c :: t /\ isspace c = false.
Proof.
  induction s as [|c s IH]; simpl; [left; reflexivity|].
  destruct (isspace c) eqn:Hc; [exact IH|].
  right; exists c, s; auto.
Qed.

Lemma lstrip_nil_spaces (s : pystr) : lstrip s = [] -> forallb isspace s = true.
Proof.
  induction s as [|c s IH]; simpl; [reflexivity|].
  destruct (isspace c); [auto | discriminate].
Qed.

Lemma forallb_rev {A} (f : A -> bool) (l : list A) :
  forallb f (rev l) = forallb f l.
Proof.
  induction l as [|x l IH]; simpl; [reflexivity|].
  rewrite forallb_app, IH; simpl. rewrite andb_true_r, andb_comm; reflexivity.
Qed.

(** [s.strip()] is empty exactly when [s] is white space only (the
    empty string included). *)
Lemma strip_nil_iff (s : pystr) : strip s = [] <-> forallb isspace s = true.
Proof.
  unfold strip, rstrip. split.
  - intros H. apply (f_equal (@rev N)) in H. rewrite rev_involutive in H.
    simpl in H. apply lstrip_nil_spaces in H. rewrite forallb_rev in H.
    destruct (lstrip_head s) as [E | (c & t & E & Hc)].
    + apply lstrip_nil_spaces; exact E.
    + rewrite E in H; simpl in H. rewrite Hc in H; discriminate.
  - intros H. rewrite (lstrip_spaces _ H). reflexivity.
Qed.

Lemma strip_nonempty (s : pystr) : strip s <> [] -> s <> [].
Proof. intros H ->. apply H. reflexivity. Qed.

Lemma truthy_str (s : pystr) : truthy (PyStr s) = false <-> s = [].
Proof. destruct s; simpl; split; congruence. Qed.

(** The falsy values. *)
Lemma falsy_cases (v : pyval) :
  truthy v = false <->
  v = PyNone \/ v = PyBool false \/ v = PyInt 0 \/
  (exists sign, v = PyFloat (S754_zero sign)) \/
  v = PyStr [] \/ v = PyList [] \/ v = PyDict [].
Proof.
  split.
  - destruct v as [ |b|z|f|s|l|d]; simpl; intros H.
    + auto.
    + subst b; auto.
    + apply negb_false_iff, Z.eqb_eq in H; subst z; auto 6.
    + destruct f; try discriminate. right; right; right; left; eexists; reflexivity.
    + destruct s; [auto 8 | discriminate].
    + destruct l; [auto 8 | discriminate].
    + destruct d; [auto 8 | discriminate].
  - intros [->|[->|[->|[[sg ->]|[->|[->| ->]]]]]]; reflexivity.
Qed.

Lemma dict_keys_set (k : pystr) (v : pyval) (d : dict) :
  dict_keys (dict_set k v d) = keys_set k (dict_keys d).
Proof.
  induction d as [|[k' v'] d IH]; simpl; [reflexivity|].
  destruct (pystr_eqb k k'); simpl; [reflexivity|].
  f_equal; exact IH.
Qed.


(* =================================================================== *)
(** ** The dictionary display *)
(* =================================================================== *)

Lemma eval_display_cons k m rest text acc p :
  eval_display ((k, m) :: rest) text acc p =
  match textstat m text (lib p) with
  | (inl e, s') => (Raises (Exception e), called p m text (inl e) s')
  | (inr v, s') =>
      eval_display rest text (dict_set (lit k) v acc) (called p m text (inr v) s')
  end.
Proof.
  simpl. unfold bind, call_textstat, called.
  destruct (textstat m text (lib p)) as [[e|v] s']; reflexivity.
Qed.

(** Evaluating the display touches neither standard input nor
    standard output, and it never exits. *)
Lemma eval_display_io entries text : forall acc p c p',
  eval_display entries text acc p = (c, p') ->
  stdin p' = stdin p /\ stdout p' = stdout p /\
  (forall status, c <> Raises (SystemExit status)).
Proof.
  induction entries as [|[k m] rest IH]; intros acc p c p' H.
  - inversion H; subst. repeat split; discriminate.
  - rewrite eval_display_cons in H.
    destruct (textstat m text (lib p)) as [[e|v] s'].
    + inversion H; subst. repeat split; discriminate.
    + apply IH in H. exact H.
Qed.

(** When the display evaluates, the resulting dictionary has the keys
    of the display, first occurrences first. *)
Lemma eval_display_keys entries text : forall acc p r p',
  eval_display entries text acc p = (Returns r, p') ->
  dict_keys r = display_keys entries (dict_keys acc).
Proof.
  induction entries as [|[k m] rest IH]; intros acc p r p' H.
  - inversion H; reflexivity.
  - rewrite eval_display_cons in H.
    destruct (textstat m text (lib p)) as [[e|v] s']; [discriminate|].
    apply IH in H. rewrite H, dict_keys_set. reflexivity.
Qed.


(** When the display evaluates, every call of the display was made,
    in order and on the same text, and every call returned. *)
Lemma eval_display_calls entries text : forall acc p r p',
  eval_display entries text acc p = (Returns r, p') ->
  exists log,
    calls p' = calls p ++ log /\
    List.map call_metric log = display_calls entries /\
    Forall (fun c => call_text c = text /\ exists v, call_result c = inr v) log.
Proof.
  induction entries as [|[k m] rest IH]; intros acc p r p' H.
  - inversion H; subst. exists []. rewrite app_nil_r. auto.
  - rewrite eval_display_cons in H.
    destruct (textstat m text (lib p)) as [[e|v] s']; [discriminate|].
    apply IH in H. destruct H as (log & H1 & H2 & H3).
    exists (mkCall m text (inr v) :: log). repeat split.
    + rewrite H1. simpl. rewrite <- app_assoc. reflexivity.
    + simpl. rewrite H2. reflexivity.
    + constructor; [simpl; eauto | exact H3].
Qed.

(** When the display raises, the exception is that of the one call
    that failed. *)
Lemma eval_display_failed entries text : forall acc p e p',
  eval_display entries text acc p = (Raises (Exception e), p') ->
  exists log,
    calls p' = calls p ++ log /\
    forall c e', In c log -> call_result c = inl e' -> e' = e.
Proof.
  induction entries as [|[k m] rest IH]; intros acc p e p' H.
  - discriminate.
  - rewrite eval_display_cons in H.
    destruct (textstat m text (lib p)) as [[e0|v] s'].
    + inversion H; subst. exists [mkCall m text (inl e)]. split; [reflexivity|].
      intros c e' [<-|[]]; simpl; congruence.
    + apply IH in H. destruct H as (log & H1 & H2).
      exists (mkCall m text (inr v) :: log). split.
      * rewrite H1. simpl. rewrite <- app_assoc. reflexivity.
      * intros c e' [<-|Hin]; [simpl; discriminate | eauto].
Qed.


(** If one call of the display raises, whatever the state of the
    library, the display raises: the exception of the first call
    that fails. *)
Lemma eval_display_raises entries text m0 : forall acc p,
  In m0 (display_calls entries) ->
  (forall s, exists e s', textstat m0 text s = (inl e, s')) ->
  exists e p' m s s',
    eval_display entries text acc p = (Raises (Exception e), p') /\
    In m (display_calls entries) /\ textstat m text s = (inl e, s').
Proof.
  induction entries as [|[k m] rest IH]; intros acc p Hin Hfail.
  - destruct Hin.
  - rewrite eval_display_cons.
    destruct (textstat m text (lib p)) as [[e|v] s'] eqn:E.
    + exists e, (called p m text (inl e) s'), m, (lib p), s'.
      split; [reflexivity | split; [left; reflexivity | exact E]].
    + destruct Hin as [Heq | Hin].
      * simpl in Heq; subst m0.
        destruct (Hfail (lib p)) as (e & s'' & E'). congruence.
      * destruct (IH (dict_set (lit k) v acc) (called p m text (inr v) s') Hin Hfail)
          as (e & p' & m' & s & s'' & H1 & H2 & H3).
        exists e, p', m', s, s''.
        split; [exact H1 | split; [right; exact H2 | exact H3]].
Qed.

(* =================================================================== *)
(** ** The paths through [main] *)
(* =================================================================== *)

Ltac run_main :=
  unfold main, try_except, bind, json_load_stdin, start; simpl.

(** [json.load] raises. *)
Lemma main_parse_error input s e :
  json_load input = inl e ->
  main (start input s) =
  (Raises (SystemExit 1), mkProcess input [error_envelope e] s []).
Proof. intros H. run_main. rewrite H. reflexivity. Qed.

(** The input decodes to something that is not an object. *)
Lemma main_not_object input s v :
  json_load input = inr v ->
  (forall d, v <> PyDict d) ->
  main (start input s) =
  (Raises (SystemExit 1),
   mkProcess input [error_envelope (AttributeError v "get")] s []).
Proof.
  intros H Hv. run_main. rewrite H.
  destruct v; try reflexivity. exfalso; eapply Hv; reflexivity.
Qed.

(** The guard of [main]. *)
Lemma main_no_text input s d :
  json_load input = inr (PyDict d) ->
  truthy (text_field d) = false ->
  main (start input s) =
  (Raises (SystemExit 1),
   mkProcess input
     [error_envelope (ValueError "No text provided in input JSON")] s []).
Proof.
  intros H Hf. run_main. rewrite H. unfold py_get, text_field in *.
  destruct (dict_get (lit "text") d) as [v|]; unfold ret; simpl;
    [rewrite Hf|]; reflexivity.
Qed.

(** A truthy [text] that is not a string has no [strip]. *)
Lemma main_not_str input s d :
  json_load input = inr (PyDict d) ->
  truthy (text_field d) = true ->
  (forall t, text_field d <> PyStr t) ->
  main (start input s) =
  (Raises (SystemExit 1),
   mkProcess input
     [error_envelope (AttributeError (text_field d) "strip")] s []).
Proof.
  intros H Ht Hs. run_main. rewrite H. unfold py_get, text_field in *.
  destruct (dict_get (lit "text") d) as [v|]; [|discriminate].
  unfold ret; simpl. rewrite Ht; simpl.
  unfold analyze_text, bind. rewrite Ht. simpl.
  destruct v; try reflexivity. exfalso; eapply Hs; reflexivity.
Qed.

(** The guard of [analyze_text], reached with a string that is not
    empty. *)
Lemma main_blank input s d t :
  json_load input = inr (PyDict d) ->
  text_field d = PyStr t ->
  t <> [] ->
  strip t = [] ->
  main (start input s) =
  (Raises (SystemExit 1),
   mkProcess input [error_envelope (ValueError "Text cannot be empty")] s []).
Proof.
  intros H Ht Hne Hb.
  assert (Htr : truthy (PyStr t) = true) by (destruct t; [congruence | reflexivity]).
  run_main. rewrite H. unfold py_get, text_field in *.
  destruct (dict_get (lit "text") d) as [v|]; unfold ret; simpl.
  - subst v. rewrite Htr. simpl. unfold analyze_text, bind. rewrite Htr. simpl.
    unfold ret. rewrite Hb. reflexivity.
  - inversion Ht; subst; congruence.
Qed.

(** Past both guards the display decides. *)
Lemma main_metrics input s d t :
  json_load input = inr (PyDict d) ->
  text_field d = PyStr t ->
  strip t <> [] ->
  main (start input s) =
  match eval_display metrics_display (PyStr t) [] (start input s) with
  | (Returns r, p) =>
      (Raises (SystemExit 0), mkProcess input [PyDict r] (lib p) (calls p))
  | (Raises (Exception e), p) =>
      (Raises (SystemExit 1), mkProcess input [error_envelope e] (lib p) (calls p))
  | (Raises (SystemExit status), p) => (Raises (SystemExit status), p)
  end.
Proof.
  intros H Ht Hb.
  assert (Hne : t <> []) by (apply strip_nonempty; exact Hb).
  assert (Htr : truthy (PyStr t) = true) by (destruct t; [congruence | reflexivity]).
  assert (Hst : truthy (PyStr (strip t)) = true)
    by (destruct (strip t); [congruence | reflexivity]).
  unfold main, try_except, bind, json_load_stdin.
  change (stdin (start input s)) with input. rewrite H.
  assert (Hget : py_get (PyDict d) "text" (PyStr []) (start input s)
                 = (Returns (PyStr t), start input s)).
  { unfold py_get, text_field in *.
    destruct (dict_get (lit "text") d) as [v|]; unfold ret; congruence. }
  rewrite Hget, Htr. unfold negb, ret.
  unfold analyze_text, bind. rewrite Htr. unfold negb, py_strip, ret.
  rewrite Hst.
  destruct (eval_display metrics_display (PyStr t) [] (start input s))
    as [[r|[e|status]] p] eqn:E;
    destruct (eval_display_io _ _ _ _ _ _ E) as (Hin & Hout & Hexit).
  - unfold json_dump, sys_exit. rewrite Hin, Hout. reflexivity.
  - unfold json_dump, sys_exit. rewrite Hin, Hout. reflexivity.
  - exfalso. eapply Hexit; reflexivity.
Qed.

(* =================================================================== *)
(** ** Runs *)
(* =================================================================== *)

Lemma run_of_main input s c p :
  main (start input s) = (c, p) ->
  run input s = (finish c, stdout p) /\ run_calls input s = calls p.
Proof. intros H. unfold run, run_calls. rewrite H. auto. Qed.

Lemma text_field_some d v :
  dict_get (lit "text") d = Some v -> text_field d = v.
Proof. unfold text_field. intros ->. reflexivity. Qed.

Lemma text_field_none d :
  dict_get (lit "text") d = None -> text_field d = PyStr [].
Proof. unfold text_field. intros ->. reflexivity. Qed.

Lemma metrics_display_keys : display_keys metrics_display [] = metric_keys.
Proof. reflexivity. Qed.

Lemma metric_keys_distinct : NoDup metric_keys /\ List.length metric_keys = 18%nat.
Proof.
  split; [|reflexivity].
  unfold metric_keys. simpl.
  repeat (constructor; [simpl; intuition discriminate|]). constructor.
Qed.

Lemma run_parse_error input s e :
  json_load input = inl e -> rejected input s e.
Proof. intros H. apply (run_of_main _ _ _ _ (main_parse_error _ s _ H)). Qed.

Lemma run_not_object input s v :
  json_load input = inr v -> (forall d, v <> PyDict d) ->
  rejected input s (AttributeError v "get").
Proof. intros H Hv. apply (run_of_main _ _ _ _ (main_not_object _ s _ H Hv)). Qed.

Lemma run_no_text input s d :
  json_load input = inr (PyDict d) -> truthy (text_field d) = false ->
  rejected input s (ValueError "No text provided in input JSON").
Proof. intros H Hf. apply (run_of_main _ _ _ _ (main_no_text _ s _ H Hf)). Qed.

Lemma run_not_str input s d :
  json_load input = inr (PyDict d) -> truthy (text_field d) = true ->
  (forall t, text_field d <> PyStr t) ->
  rejected input s (AttributeError (text_field d) "strip").
Proof. intros H Ht Hs. apply (run_of_main _ _ _ _ (main_not_str _ s _ H Ht Hs)). Qed.

Lemma run_blank input s d t :
  json_load input = inr (PyDict d) -> text_field d = PyStr t ->
  t <> [] -> strip t = [] ->
  rejected input s (ValueError "Text cannot be empty").
Proof. intros H Ht Hne Hb. apply (run_of_main _ _ _ _ (main_blank _ s _ _ H Ht Hne Hb)). Qed.

(** Every input is rejected by a guard, in the same way whatever the
    state of the library, or reaches the display with a string that
    is not blank. *)
Lemma guards input :
  (exists e, forall s, rejected input s e) \/
  (exists d t, json_load input = inr (PyDict d) /\ text_field d = PyStr t /\
               strip t <> []).
Proof.
  destruct (json_load input) as [e|v] eqn:H.
  - left; exists e; intros s; apply run_parse_error; exact H.
  - destruct v as [ |b|z|f|x|l|d];
      try (left; eexists; intros s; apply (run_not_object _ s _ H); discriminate).
    destruct (truthy (text_field d)) eqn:Ht.
    + destruct (text_field d) as [ |b|z|f|t|l|d'] eqn:Hf; rewrite <- Hf in Ht;
        try (left; eexists; intros s; apply (run_not_str _ s _ H Ht);
             rewrite Hf; discriminate).
      destruct (strip t) as [|c u] eqn:Hs.
      * left; eexists; intros s. apply (run_blank _ s _ _ H Hf); [|exact Hs].
        intros ->. rewrite Hf in Ht. discriminate.
      * right; exists d, t. rewrite Hs. repeat split; [exact Hf | discriminate].
    + left; eexists; intros s; apply (run_no_text _ s _ H Ht).
Qed.

(** Past the guards, what the display returns or raises is what the
    run writes. *)
Lemma run_reaches_display input s d t :
  json_load input = inr (PyDict d) -> text_field d = PyStr t -> strip t <> [] ->
  run input s =
  match fst (eval_display metrics_display (PyStr t) [] (start input s)) with
  | Returns r => (Exit 0, [PyDict r])
  | Raises (Exception e) => (Exit 1, [error_envelope e])
  | Raises (SystemExit status) => (Exit status, [])
  end.
Proof.
  intros H Hf Hs. pose proof (main_metrics _ s _ _ H Hf Hs) as Hm.
  destruct (eval_display metrics_display (PyStr t) [] (start input s))
    as [[r|[e|status]] p] eqn:E; simpl.
  - apply (run_of_main _ _ _ _ Hm).
  - apply (run_of_main _ _ _ _ Hm).
  - exfalso. destruct (eval_display_io _ _ _ _ _ _ E) as (_ & _ & Hx).
    eapply Hx; reflexivity.
Qed.

Lemma run_metrics input s d t :
  json_load input = inr (PyDict d) -> text_field d = PyStr t -> strip t <> [] ->
  (exists results, emitted input s results) \/ (exists e, failed input s e).
Proof.
  intros H Hf Hs. pose proof (main_metrics _ s _ _ H Hf Hs) as Hm.
  destruct (eval_display metrics_display (PyStr t) [] (start input s))
    as [[r|[e|status]] p] eqn:E.
  - left; exists r. destruct (run_of_main _ _ _ _ Hm) as [Hr Hc].
    destruct (eval_display_calls _ _ _ _ _ _ E) as (log & L1 & L2 & L3).
    simpl in L1, Hc. subst log. unfold emitted. rewrite Hc.
    repeat split.
    + exact Hr.
    + rewrite (eval_display_keys _ _ _ _ _ _ E). apply metrics_display_keys.
    + exact L2.
    + eapply Forall_impl; [|exact L3]. intros c [_ Hv]; exact Hv.
  - right; exists e. destruct (run_of_main _ _ _ _ Hm) as [Hr Hc].
    destruct (eval_display_failed _ _ _ _ _ _ E) as (log & L1 & L2).
    simpl in L1, Hc. subst log. unfold failed. rewrite Hc.
    split; [exact Hr | exact L2].
  - exfalso. destruct (eval_display_io _ _ _ _ _ _ E) as (_ & _ & Hx).
    eapply Hx; reflexivity.
Qed.

(* =================================================================== *)
(** ** The contract of the script *)
(* =================================================================== *)


(** C2, as amended.  A missing [text] key and an empty [text] string
    give the error "No text provided in input JSON"; a [text] string
    that is not empty but white space only gives the error "Text
    cannot be empty".  In both cases the script writes the error
    envelope, with type [ValueError], and exits with status 1. *)
Theorem no_text_and_blank_text_errors input s d msg :
  json_load input = inr (PyDict d) ->
  ((dict_get (lit "text") d = None \/ dict_get (lit "text") d = Some (PyStr []))
   /\ msg = "No text provided in input JSON"%string)
  \/ (exists t, dict_get (lit "text") d = Some (PyStr t) /\ t <> [] /\
                 strip t = [] /\ msg = "Text cannot be empty"%string) ->
  run input s =
  (Exit 1, [PyDict [ (lit "error", PyStr (lit msg));
                     (lit "type", PyStr (lit "ValueError")) ]]).
Proof.
  intros H [[Hget ->] | (t & Hget & Hne & Hb & ->)].
  - apply (run_no_text _ s _ H).
    destruct Hget as [Hget|Hget];
      [rewrite (text_field_none _ Hget) | rewrite (text_field_some _ _ Hget)];
      reflexivity.
  - apply (run_blank _ s _ _ H (text_field_some _ _ Hget) Hne Hb).
Qed.


(** C4. Either every call of the display was made and returned, and
    the script wrote the 18 metrics together and exited with status
    0; or the script wrote the error envelope alone and exited with
    status 1, and if a library call raised, the envelope is that of
    its exception.  So when a metric computation fails, no metric is
    written. *)
Theorem all_or_nothing input s :
  (exists results,
      run input s = (Exit 0, [PyDict results]) /\
      dict_keys results = metric_keys /\
      List.map call_metric (run_calls input s) = display_calls metrics_display /\
      Forall (fun c => exists v, call_result c = inr v) (run_calls input s))
  \/
  (exists e,
      run input s = (Exit 1, [error_envelope e]) /\
      forall c e', In c (run_calls input s) -> call_result c = inl e' -> e' = e).
Proof.
  destruct (guards input) as [(e & Hrej) | (d & t & H & Hf & Hs)].
  - right. exists e. destruct (Hrej s) as [Hr Hc]. split; [exact Hr|].
    rewrite Hc. intros c e' [].
  - exact (run_metrics _ s _ _ H Hf Hs).
Qed.

(** C5. When standard input does not decode as JSON, the script
    writes the error envelope, with the message and the type name of
    the exception [json.load] raised, and exits with status 1. *)
Theorem malformed_input_error input s e :
  json_load input = inl e ->
  run input s =
  (Exit 1, [PyDict [ (lit "error", PyStr (exn_str e));
                     (lit "type", PyStr (exn_name e)) ]]).
Proof. intros H. apply (run_parse_error _ s _ H). Qed.

(** The display calls [linsear_write_formula] twice and every other
    function once. *)
Lemma display_call_counts m :
  In m (display_calls metrics_display) ->
  count_occ metric_eq_dec (display_calls metrics_display) m =
  if metric_eq_dec m linsear_write_formula then 2%nat else 1%nat.
Proof.
  intros H. unfold display_calls, metrics_display in H. simpl in H.
  repeat (destruct H as [<-|H]; [vm_compute; reflexivity|]). destruct H.
Qed.

(** Two entries of the display that make the same call have the same
    key. *)
Lemma display_same_call_same_key k1 k2 m :
  In (k1, m) metrics_display -> In (k2, m) metrics_display -> k1 = k2.
Proof.
  unfold metrics_display. intros H1 H2.
  repeat (destruct H1 as [H1|H1];
          [inversion H1; subst; clear H1;
           repeat (destruct H2 as [H2|H2];
                   [first [discriminate H2 | inversion H2; reflexivity]|]);
           destruct H2|]).
  destruct H1.
Qed.

(** C8, as amended.  A missing [text] key and an empty or blank
    [text] string give an error envelope of the same type,
    [ValueError].  The source computes [linsear_write_formula] twice,
    both times under the one key [linsear_write_formula]; no metric
    is stored under two different keys, and the result has 18
    keys. *)
Theorem same_error_type_and_repeated_entry input s d :
  json_load input = inr (PyDict d) ->
  dict_get (lit "text") d = None \/
  (exists t, dict_get (lit "text") d = Some (PyStr t) /\ strip t = []) ->
  (exists msg,
      run input s =
      (Exit 1, [PyDict [ (lit "error", PyStr msg);
                         (lit "type", PyStr (lit "ValueError")) ]]))
  /\ count_occ metric_eq_dec (display_calls metrics_display)
               linsear_write_formula = 2%nat
  /\ (forall k, In (k, linsear_write_formula) metrics_display ->
                k = "linsear_write_formula"%string)
  /\ (forall k1 k2 m, In (k1, m) metrics_display ->
                      In (k2, m) metrics_display -> k1 = k2)
  /\ List.length (display_keys metrics_display []) = 18%nat.
Proof.
  intros H Hget. split; [|split; [|split; [|split]]].
  - destruct Hget as [Hget | (t & Hget & Hb)].
    + eexists. apply (run_no_text _ s _ H).
      rewrite (text_field_none _ Hget). reflexivity.
    + apply text_field_some in Hget. destruct t as [|c t].
      * eexists. apply (run_no_text _ s _ H). rewrite Hget. reflexivity.
      * eexists. apply (run_blank _ s _ _ H Hget); [discriminate | exact Hb].
  - reflexivity.
  - intros k Hk. apply (display_same_call_same_key k _ linsear_write_formula Hk).
    simpl; auto 8.
  - exact display_same_call_same_key.
  - reflexivity.
Qed.

(** C10. When the input is a JSON object without the key [text], or
    with a [text] that is falsy (null, the empty string, 0, false, an
    empty array, an empty object), the script writes the error
    envelope with the message "No text provided in input JSON" and
    the type "ValueError", exits with status 1, and has made no call
    into the library. *)
Theorem falsy_text_error input s d :
  json_load input = inr (PyDict d) ->
  dict_get (lit "text") d = None \/
  (exists v, dict_get (lit "text") d = Some v /\ truthy v = false) ->
  run input s =
  (Exit 1, [PyDict [ (lit "error", PyStr (lit "No text provided in input JSON"));
                     (lit "type", PyStr (lit "ValueError")) ]])
  /\ run_calls input s = [].
Proof.
  intros H Hget. apply (run_no_text _ s _ H).
  destruct Hget as [Hget | (v & Hget & Hv)].
  - rewrite (text_field_none _ Hget). reflexivity.
  - rewrite (text_field_some _ _ Hget). exact Hv.
Qed.

(* =================================================================== *)
(** ** The log of the library calls *)
(* =================================================================== *)

Lemma dict_set_In k v k0 v0 (d : dict) :
  In (k, v) (dict_set k0 v0 d) -> In (k, v) d \/ (k = k0 /\ v = v0).
Proof.
  induction d as [|[k' v'] d IH]; simpl.
  - intros [H|[]]. inversion H; auto.
  - destruct (pystr_eqb k0 k') eqn:E; simpl.
    + apply pystr_eqb_eq in E. subst k'.
      intros [H|H]; [inversion H; auto | auto].
    + intros [H|H]; [auto | destruct (IH H); auto].
Qed.

Lemma display_log_text text entries log b :
  display_log text entries log b ->
  Forall (fun c => call_text c = text) log.
Proof. induction 1; repeat constructor; auto. Qed.

Lemma display_log_prefix text entries log b :
  display_log text entries log b ->
  exists rest, List.map call_metric log ++ rest = display_calls entries.
Proof.
  induction 1 as [ |k m rest e|k m rest v log b _ [rest' IH]].
  - exists []; reflexivity.
  - exists (display_calls rest); reflexivity.
  - exists rest'. simpl. rewrite IH. reflexivity.
Qed.

Lemma display_log_stop text entries log b :
  display_log text entries log b ->
  forall pre c post e,
    log = pre ++ c :: post -> call_result c = inl e -> post = [].
Proof.
  induction 1 as [ |k m rest e0|k m rest v log b _ IH]; intros pre c post e Hl Hc.
  - destruct pre; discriminate.
  - destruct pre as [|x [|y pre]]; inversion Hl; reflexivity.
  - destruct pre as [|x pre]; inversion Hl; subst.
    + discriminate.
    + eapply IH; eauto.
Qed.

(** The display ran to its end exactly when the log holds all its
    calls and none of them raised. *)
Lemma display_log_complete text entries log b :
  display_log text entries log b ->
  b = true <->
  List.map call_metric log = display_calls entries /\
  Forall (fun c => exists v, call_result c = inr v) log.
Proof.
  induction 1 as [ |k m rest e|k m rest v log b _ IH].
  - split; auto.
  - split; [discriminate|]. intros [_ H]. inversion H as [|? ? [v Hv] _]; subst.
    discriminate.
  - rewrite IH. simpl. split.
    + intros [H1 H2]. split; [rewrite H1; reflexivity|].
      constructor; [eexists; reflexivity | exact H2].
    + intros [H1 H2]. inversion H1. inversion H2; subst. auto.
Qed.

Lemma display_log_nonempty text entries log b :
  display_log text entries log b -> entries <> [] -> log <> [].
Proof. destruct 1; intros Hne; [contradiction | discriminate | discriminate]. Qed.

(** Every value of a replayed dictionary was there before or was
    returned by the call of the entry with its key. *)
Lemma replay_values text entries log :
  display_log text entries log true ->
  forall acc k v,
    In (k, v) (replay entries log acc) ->
    In (k, v) acc \/
    exists name m, k = lit name /\ In (name, m) entries /\
                   In (mkCall m text (inr v)) log.
Proof.
  intros H. remember true as b eqn:Hb. revert Hb.
  induction H as [ |k0 m0 rest e|k0 m0 rest v0 log b _ IH]; intros Hb acc k v Hin.
  - left; exact Hin.
  - discriminate.
  - simpl in Hin. destruct (IH Hb _ _ _ Hin) as [Hacc | (name & m & E1 & E2 & E3)].
    + destruct (dict_set_In _ _ _ _ _ Hacc) as [Hold | [-> ->]]; [left; exact Hold|].
      right. exists k0, m0. split; [reflexivity | split; left; reflexivity].
    + right. exists name, m. split; [exact E1 | split; right; assumption].
Qed.

Definition returned {A} (c : completion A) : bool :=
  match c with Returns _ => true | Raises _ => false end.

(** What evaluating a display adds to the log, and the dictionary it
    returns. *)
Lemma eval_display_trace entries text : forall acc p c p',
  eval_display entries text acc p = (c, p') ->
  exists log,
    calls p' = calls p ++ log /\
    display_log text entries log (returned c) /\
    forall r, c = Returns r -> r = replay entries log acc.
Proof.
  induction entries as [|[k m] rest IH]; intros acc p c p' H.
  - inversion H; subst. exists []. rewrite app_nil_r.
    repeat split; [constructor|]. intros r Hr. inversion Hr. reflexivity.
  - rewrite eval_display_cons in H.
    destruct (textstat m text (lib p)) as [[e|v] s'].
    + inversion H; subst. exists [mkCall m text (inl e)].
      repeat split; [constructor | discriminate].
    + apply IH in H. destruct H as (log & H1 & H2 & H3).
      exists (mkCall m text (inr v) :: log). repeat split.
      * rewrite H1. simpl. rewrite <- app_assoc. reflexivity.
      * constructor; exact H2.
      * intros r Hr. simpl. apply H3; exact Hr.
Qed.

(** What the display returns or raises depends on the process through
    the state of the library only. *)
Lemma eval_display_same_lib entries text : forall acc p1 p2,
  lib p1 = lib p2 ->
  fst (eval_display entries text acc p1) = fst (eval_display entries text acc p2).
Proof.
  induction entries as [|[k m] rest IH]; intros acc p1 p2 Hl.
  - reflexivity.
  - rewrite !eval_display_cons, Hl.
    destruct (textstat m text (lib p2)) as [[e|v] s']; [reflexivity|].
    apply IH. reflexivity.
Qed.

(* =================================================================== *)
(** ** [analyze_text] on its own *)
(* =================================================================== *)

Lemma analyze_falsy text p :
  truthy text = false ->
  analyze_text text p =
  (Raises (Exception (ValueError "Text cannot be empty")), p).
Proof. intros H. unfold analyze_text, bind. rewrite H. reflexivity. Qed.

Lemma analyze_not_str text p :
  truthy text = true -> (forall t, text <> PyStr t) ->
  analyze_text text p = (Raises (Exception (AttributeError text "strip")), p).
Proof.
  intros H Hs. unfold analyze_text, bind. rewrite H. simpl.
  destruct text; try reflexivity. exfalso; eapply Hs; reflexivity.
Qed.

Lemma analyze_blank t p :
  strip t = [] ->
  analyze_text (PyStr t) p =
  (Raises (Exception (ValueError "Text cannot be empty")), p).
Proof.
  intros H. destruct t as [|c t]; [apply analyze_falsy; reflexivity|].
  unfold analyze_text, bind. simpl truthy. simpl negb. cbv iota.
  unfold py_strip, ret. rewrite H. reflexivity.
Qed.

Lemma analyze_display t p :
  strip t <> [] ->
  analyze_text (PyStr t) p =
  match eval_display metrics_display (PyStr t) [] p with
  | (Returns r, p') => (Returns (PyDict r), p')
  | (Raises x, p') => (Raises x, p')
  end.
Proof.
  intros H.
  assert (Htr : truthy (PyStr t) = true)
    by (destruct t; [exfalso; apply H; reflexivity | reflexivity]).
  assert (Hst : truthy (PyStr (strip t)) = true)
    by (destruct (strip t); [congruence | reflexivity]).
  unfold analyze_text, bind. rewrite Htr. unfold negb, py_strip, ret.
  rewrite Hst.
  destruct (eval_display metrics_display (PyStr t) [] p) as [[r|x] p'];
    reflexivity.
Qed.

(* =================================================================== *)
(** ** Further properties of [main] and [analyze_text] *)
(* =================================================================== *)

(** Past the guards, the log of a run has the shape of the display's
    log, the exit status tells whether the display ran to its end, and
    the dictionary written is the one the logged values build. *)
Lemma run_trace input s d t :
  json_load input = inr (PyDict d) -> text_field d = PyStr t -> strip t <> [] ->
  exists b,
    display_log (PyStr t) metrics_display (run_calls input s) b /\
    fst (run input s) = Exit (if b then 0 else 1) /\
    forall results, run input s = (Exit 0, [PyDict results]) ->
                    results = replay metrics_display (run_calls input s) [].
Proof.
  intros H Hf Hs. pose proof (main_metrics _ s _ _ H Hf Hs) as Hm.
  destruct (eval_display metrics_display (PyStr t) [] (start input s))
    as [c p] eqn:E.
  destruct (eval_display_trace _ _ _ _ _ _ E) as (log & L1 & L2 & L3).
  simpl in L1. destruct c as [r|[e|status]].
  - destruct (run_of_main _ _ _ _ Hm) as [Hr Hc]. simpl in Hr, Hc.
    exists true. rewrite Hc, Hr, L1. repeat split; [exact L2|].
    intros results Hres. inversion Hres; subst. apply L3; reflexivity.
  - destruct (run_of_main _ _ _ _ Hm) as [Hr Hc]. simpl in Hr, Hc.
    exists false. rewrite Hc, Hr, L1. repeat split; [exact L2|].
    intros results Hres. discriminate.
  - exfalso. destruct (eval_display_io _ _ _ _ _ _ E) as (_ & _ & Hx).
    eapply Hx; reflexivity.
Qed.

(** X1. JSON that decodes to something other than an object (an array,
    a string, a number, true, false, null) has no [get]: the script
    writes the envelope of the [AttributeError], exits with status 1
    and calls no metric. *)
Theorem non_object_input_error input s v :
  json_load input = inr v ->
  (forall d, v <> PyDict d) ->
  run input s =
  (Exit 1,
   [PyDict [ (lit "error",
              PyStr (lit ("'" ++ type_name v ++ "' object has no attribute 'get'")));
             (lit "type", PyStr (lit "AttributeError")) ]])
  /\ run_calls input s = [].
Proof. intros H Hv. exact (run_not_object _ s _ H Hv). Qed.

(** X2. A [text] that is truthy and not a string (a number other than
    zero, true, an array or an object that is not empty) passes the
    guard of [main] and fails at [text.strip()]: the script writes the
    envelope of the [AttributeError], exits with status 1 and calls no
    metric. *)
Theorem non_string_text_error input s d v :
  json_load input = inr (PyDict d) ->
  dict_get (lit "text") d = Some v ->
  truthy v = true ->
  (forall t, v <> PyStr t) ->
  run input s =
  (Exit 1,
   [PyDict [ (lit "error",
              PyStr (lit ("'" ++ type_name v ++ "' object has no attribute 'strip'")));
             (lit "type", PyStr (lit "AttributeError")) ]])
  /\ run_calls input s = [].
Proof.
  intros H Hget Ht Hs. apply text_field_some in Hget.
  rewrite <- Hget in Ht, Hs |- *. exact (run_not_str _ s _ H Ht Hs).
Qed.

(** X3. The guard of [analyze_text]: called on any value, the function
    raises [ValueError("Text cannot be empty")] before any call into the
    library exactly when the value is falsy or is a string of white
    space only. *)
Theorem analyze_text_guard text p :
  analyze_text text p =
  (Raises (Exception (ValueError "Text cannot be empty")), p)
  <->
  truthy text = false \/
  exists t, text = PyStr t /\ forallb isspace t = true.
Proof.
  split.
  - intros H. destruct (truthy text) eqn:Ht; [|left; reflexivity]. right.
    destruct text as [ |b|z|f|t|l|d];
      try (rewrite analyze_not_str in H; [discriminate H | exact Ht | discriminate]).
    exists t. split; [reflexivity|]. apply strip_nil_iff.
    destruct (strip t) as [|c u] eqn:Hs; [reflexivity|]. exfalso.
    rewrite analyze_display in H by (rewrite Hs; discriminate).
    destruct (eval_display metrics_display (PyStr t) [] p) as [c0 p'] eqn:E.
    destruct (eval_display_trace _ _ _ _ _ _ E) as (log & L1 & L2 & _).
    apply display_log_nonempty in L2; [|discriminate].
    destruct c0 as [r|x]; [discriminate H|].
    inversion H; subst p'. apply L2.
    apply (app_inv_head (calls p)). rewrite app_nil_r. symmetry. exact L1.
  - intros [Hf | (t & -> & Hb)].
    + apply analyze_falsy; exact Hf.
    + apply analyze_blank. apply strip_nil_iff; exact Hb.
Qed.

(** X4. The library receives the text as decoded: every call of a run
    is made on the value of the [text] field itself, not on the
    stripped string of the guard. *)
Theorem calls_receive_text_unchanged input s d :
  json_load input = inr (PyDict d) ->
  Forall (fun c => call_text c = text_field d) (run_calls input s).
Proof.
  intros H. destruct (guards input) as [(e & Hrej) | (d' & t & H' & Hf & Hs)].
  - destruct (Hrej s) as [_ ->]. constructor.
  - rewrite H in H'. inversion H'; subst d'.
    destruct (run_trace _ s _ _ H Hf Hs) as (b & L & _).
    rewrite Hf. exact (display_log_text _ _ _ _ L).
Qed.

(** X5. The calls of a run are an initial part of the calls of the
    display, in the order written, and a call that raises is the last
    one: nothing is computed after a failure. *)
Theorem calls_in_display_order input s :
  (exists rest,
      List.map call_metric (run_calls input s) ++ rest =
      display_calls metrics_display) /\
  (forall pre c post e,
      run_calls input s = pre ++ c :: post ->
      call_result c = inl e -> post = []).
Proof.
  destruct (guards input) as [(e & Hrej) | (d & t & H & Hf & Hs)].
  - destruct (Hrej s) as [_ ->]. split.
    + eexists; reflexivity.
    + intros [|x pre] c post e0 Hl; discriminate.
  - destruct (run_trace _ s _ _ H Hf Hs) as (b & L & _). split.
    + exact (display_log_prefix _ _ _ _ L).
    + exact (display_log_stop _ _ _ _ L).
Qed.

(** X6. The script passes the values through: each value of the
    mapping written on success is the value returned by the call that
    the display writes next to its key, made on the input text. *)
Theorem emitted_values_come_from_their_calls input s d results :
  json_load input = inr (PyDict d) ->
  run input s = (Exit 0, [PyDict results]) ->
  forall k v,
    In (k, v) results ->
    exists name m,
      k = lit name /\ In (name, m) metrics_display /\
      In (mkCall m (text_field d) (inr v)) (run_calls input s).
Proof.
  intros H Hr k v Hin.
  destruct (guards input) as [(e & Hrej) | (d' & t & H' & Hf & Hs)].
  - destruct (Hrej s) as [Hr' _]. rewrite Hr' in Hr. discriminate.
  - rewrite H in H'. inversion H'; subst d'.
    destruct (run_trace _ s _ _ H Hf Hs) as (b & L & Hb & Hrep).
    rewrite Hr in Hb. simpl in Hb. destruct b; [|discriminate].
    rewrite (Hrep _ Hr) in Hin.
    destruct (replay_values _ _ _ L [] _ _ Hin) as [[] | Hex].
    rewrite Hf. exact Hex.
Qed.

(** X7. The exit status is 0 exactly when all the calls of the display
    were made and every one of them returned. *)
Theorem exit_zero_iff_all_calls_returned input s :
  fst (run input s) = Exit 0 <->
  List.map call_metric (run_calls input s) = display_calls metrics_display /\
  Forall (fun c => exists v, call_result c = inr v) (run_calls input s).
Proof.
  destruct (guards input) as [(e & Hrej) | (d & t & H & Hf & Hs)].
  - destruct (Hrej s) as [-> ->]. simpl. split; [discriminate|].
    intros [Hm _]. discriminate.
  - destruct (run_trace _ s _ _ H Hf Hs) as (b & L & Hb & _).
    rewrite Hb, <- (display_log_complete _ _ _ _ L).
    destruct b; split; intros E; try reflexivity; discriminate.
Qed.

(** X8. Of a decoded object only the [text] field counts: two inputs
    whose objects have the same [text] (or both lack it, or one lacks
    it and the other has the empty string) end with the same status
    and the same output. *)
Theorem only_text_field_matters input1 input2 s d1 d2 :
  json_load input1 = inr (PyDict d1) ->
  json_load input2 = inr (PyDict d2) ->
  text_field d1 = text_field d2 ->
  run input1 s = run input2 s.
Proof.
  intros H1 H2 Heq.
  remember (text_field d1) as v eqn:Hf1. symmetry in Hf1, Heq.
  assert (T1 : truthy (text_field d1) = truthy v) by (rewrite Hf1; reflexivity).
  assert (T2 : truthy (text_field d2) = truthy v) by (rewrite Heq; reflexivity).
  destruct (truthy v) eqn:Ht.
  - destruct v as [ |b|z|f|t|l|d'];
      try (assert (Hs1 : forall t, text_field d1 <> PyStr t)
             by (rewrite Hf1; discriminate);
           assert (Hs2 : forall t, text_field d2 <> PyStr t)
             by (rewrite Heq; discriminate);
           destruct (run_not_str _ s _ H1 T1 Hs1) as [-> _];
           destruct (run_not_str _ s _ H2 T2 Hs2) as [-> _];
           rewrite Hf1, Heq; reflexivity).
    destruct (strip t) as [|c u] eqn:Hs.
    + assert (Hne : t <> []) by (intros ->; discriminate).
      destruct (run_blank _ s _ _ H1 Hf1 Hne Hs) as [-> _].
      destruct (run_blank _ s _ _ H2 Heq Hne Hs) as [-> _]. reflexivity.
    + assert (Hs' : strip t <> []) by (rewrite Hs; discriminate).
      rewrite (run_reaches_display _ s _ _ H1 Hf1 Hs').
      rewrite (run_reaches_display _ s _ _ H2 Heq Hs').
      rewrite (eval_display_same_lib metrics_display (PyStr t) []
                 (start input1 s) (start input2 s) eq_refl).
      reflexivity.
  - destruct (run_no_text _ s _ H1 T1) as [-> _].
    destruct (run_no_text _ s _ H2 T2) as [-> _]. reflexivity.
Qed.

(** X10. The key written twice keeps the second value: on success the
    value under [linsear_write_formula] is the one returned by the
    tenth call of the run, the second call of that function. *)
Theorem repeated_key_keeps_second_value input s results :
  run input s = (Exit 0, [PyDict results]) ->
  exists c v,
    nth_error (run_calls input s) 9 = Some c /\
    call_metric c = linsear_write_formula /\
    call_result c = inr v /\
    dict_get (lit "linsear_write_formula") results = Some v.
Proof.
  intros Hr.
  destruct (guards input) as [(e & Hrej) | (d & t & H & Hf & Hs)].
  - destruct (Hrej s) as [Hr' _]. rewrite Hr' in Hr. discriminate.
  - destruct (run_trace _ s _ _ H Hf Hs) as (b & L & Hb & Hrep).
    rewrite Hr in Hb. simpl in Hb. destruct b; [|discriminate].
    rewrite (Hrep _ Hr). clear Hrep Hr Hb.
    unfold metrics_display in L |- *.
    revert L. generalize (run_calls input s). intros log L.
    repeat match goal with
           | L : display_log _ (_ :: _) _ true |- _ => inversion L; subst; clear L
           end.
    match goal with
    | L : display_log _ [] _ true |- _ => inversion L; subst; clear L
    end.
    eexists; eexists. repeat split.
Qed.

Lemma forallb_existsb_negb {A} (f : A -> bool) (l : list A) :
  forallb f l = negb (existsb (fun x => negb (f x)) l).
Proof.
  induction l as [|x l IH]; simpl; [reflexivity|].
  rewrite IH. destruct (f x); reflexivity.
Qed.

(** A string survives [strip] when one of its characters is not white
    space. *)
Lemma strip_keeps_content (t : pystr) :
  strip t <> [] <-> existsb (fun c => negb (isspace c)) t = true.
Proof.
  rewrite strip_nil_iff, forallb_existsb_negb.
  destruct (existsb (fun c => negb (isspace c)) t); simpl; split; congruence.
Qed.

Lemma dict_get_absent k (d : dict) :
  ~ In k (dict_keys d) -> dict_get k d = None.
Proof.
  induction d as [|[k' v] d IH]; simpl; [reflexivity|]. intros H.
  destruct (pystr_eqb k k') eqn:E.
  - apply pystr_eqb_eq in E. exfalso; apply H; left; symmetry; exact E.
  - apply IH. intros Hin. apply H. right; exact Hin.
Qed.

(** X11. The library is consulted exactly when [text] is a string with
    at least one character that is not white space; every other input
    object is turned away before the first call. *)
Theorem library_called_iff_text_has_content input s d :
  json_load input = inr (PyDict d) ->
  run_calls input s <> [] <->
  exists t, text_field d = PyStr t /\
            existsb (fun c => negb (isspace c)) t = true.
Proof.
  intros H. split.
  - intros Hc. destruct (guards input) as [(e & Hrej) | (d' & t & H' & Hf & Hs)].
    + destruct (Hrej s) as [_ Hn]. contradiction.
    + rewrite H in H'. inversion H'; subst d'.
      exists t. split; [exact Hf | apply strip_keeps_content; exact Hs].
  - intros (t & Hf & Hc). apply strip_keeps_content in Hc.
    destruct (run_trace _ s _ _ H Hf Hc) as (b & L & _).
    apply (display_log_nonempty _ _ _ _ L). discriminate.
Qed.

(** X12. The output alone tells success from failure: a run that exits
    with status 0 wrote an object without the key [error], a run that
    exits with status 1 wrote an object whose [error] is a string, and
    there is no other run. *)
Theorem output_tells_failure input s :
  exists status doc,
    run input s = (Exit status, [PyDict doc]) /\
    ((status = 0%Z /\ dict_get (lit "error") doc = None) \/
     (status = 1%Z /\ exists msg, dict_get (lit "error") doc = Some (PyStr msg))).
Proof.
  assert (Herr : forall e, exists doc,
             error_envelope e = PyDict doc /\
             exists msg, dict_get (lit "error") doc = Some (PyStr msg)).
  { intros e. eexists. split; [reflexivity|]. eexists. reflexivity. }
  destruct (guards input) as [(e & Hrej) | (d & t & H & Hf & Hs)].
  - destruct (Hrej s) as [Hr _]. destruct (Herr e) as (doc & Hd & Hm).
    exists 1%Z, doc. rewrite Hr, Hd. split; [reflexivity | right; auto].
  - destruct (run_metrics _ s _ _ H Hf Hs) as [(r & Hr & Hk & _) | (e & Hr & _)].
    + exists 0%Z, r. split; [exact Hr|]. left. split; [reflexivity|].
      apply dict_get_absent. rewrite Hk. vm_compute.
      intuition discriminate.
    + destruct (Herr e) as (doc & Hd & Hm).
      exists 1%Z, doc. rewrite Hr, Hd. split; [reflexivity | right; auto].
Qed.

End Adapter.

Arguments start {lib_state} input s.
Arguments main {lib_state} json_load textstat _.
Arguments run {lib_state} json_load textstat input s.
Arguments run_calls {lib_state} json_load textstat input s.

(* ===================================================================== *)
(** ** The rate passed to [reading_time] *)
(* ===================================================================== *)

(** The display passes [ms_per_char=14.69] to [textstat.reading_time]:
    the argument is a normal binary64 number within half a unit in the
    last place of 1469/100. *)
Lemma reading_time_rate :
  In ("reading_time"%string, reading_time ms_per_char_14_69) metrics_display /\
  exists m, ms_per_char_14_69 = S754_finite false m (-49) /\
            (2 ^ 52 <= Z.pos m < 2 ^ 53)%Z /\
            (Z.abs (100 * Z.pos m - 1469 * 2 ^ 49) <= 50)%Z.
Proof.
  split; [simpl; auto 20|].
  eexists; split; [reflexivity|]. split; [split|]; vm_compute; congruence.
Qed.

(* ===================================================================== *)
(** ** Sample runs *)
(* ===================================================================== *)

Module Runs.
Import Sample.

Definition no_text_envelope : pyval :=
  PyDict [ (lit "error", PyStr (lit "No text provided in input JSON"));
           (lit "type", PyStr (lit "ValueError")) ].

Definition empty_text_envelope : pyval :=
  PyDict [ (lit "error", PyStr (lit "Text cannot be empty"));
           (lit "type", PyStr (lit "ValueError")) ].

(** A truthy [text] that is not a string. *)
Example number_text_run :
  run json_load textstat stdin_number_text 0%nat =
  (Exit 1, [PyDict [ (lit "error", PyStr (lit "'int' object has no attribute 'strip'"));
                     (lit "type", PyStr (lit "AttributeError")) ]]).
Proof. reflexivity. Qed.

(** JSON that is not an object. *)
Example array_run :
  run json_load textstat stdin_array 0%nat =
  (Exit 1, [PyDict [ (lit "error", PyStr (lit "'list' object has no attribute 'get'"));
                     (lit "type", PyStr (lit "AttributeError")) ]]).
Proof. reflexivity. Qed.

(** A library call that raises: the envelope of its exception, and
    the calls stop there. *)
Example failing_library_run :
  run json_load failing_textstat stdin_fox 0%nat =
  (Exit 1, [error_envelope ZeroDivisionError]) /\
  List.map call_metric (run_calls json_load failing_textstat stdin_fox 0%nat) =
  [flesch_reading_ease; flesch_kincaid_grade; gunning_fog; smog_index].
Proof. split; reflexivity. Qed.

(** White space beyond ASCII: an ideographic space alone is blank. *)
Example ideographic_space_is_blank : strip [12288%N] = [].
Proof. reflexivity. Qed.



(** Counterexample to C2 as stated: on the input with the empty
    [text] string, which is empty after stripping, the message is the
    one for no text provided and not the one for empty text. *)
Lemma empty_string_gets_no_text_message :
  json_load stdin_empty_text = inr (PyDict [(lit "text", PyStr [])]) /\
  strip [] = [] /\
  run json_load textstat stdin_empty_text 0%nat = (Exit 1, [no_text_envelope]) /\
  run json_load textstat stdin_empty_text 0%nat <> (Exit 1, [empty_text_envelope]) /\
  ~ (forall (lib_state : Type) decode library input (s : lib_state) d t,
        decode input = inr (PyDict d) ->
        dict_get (lit "text") d = Some (PyStr t) ->
        strip t = [] ->
        run decode library input s = (Exit 1, [empty_text_envelope])).
Proof.
  split; [reflexivity | split; [reflexivity | split; [reflexivity | split]]].
  - vm_compute. discriminate.
  - intros C.
    specialize (C nat json_load textstat stdin_empty_text 0%nat
                  [(lit "text", PyStr [])] [] eq_refl eq_refl eq_refl).
    vm_compute in C. discriminate.
Qed.

(** Witness of C2 as amended: the object without the key, the empty
    string and the blank string. *)
Lemma no_text_and_blank_text_errors_witness :
  run json_load textstat stdin_no_key 0%nat = (Exit 1, [no_text_envelope]) /\
  run json_load textstat stdin_empty_text 0%nat = (Exit 1, [no_text_envelope]) /\
  run json_load textstat stdin_blank_text 0%nat = (Exit 1, [empty_text_envelope]).
Proof.
  split; [|split].
  - apply (no_text_and_blank_text_errors nat json_load textstat stdin_no_key 0%nat
             [] "No text provided in input JSON").
    + reflexivity.
    + left. split; [left; reflexivity | reflexivity].
  - apply (no_text_and_blank_text_errors nat json_load textstat stdin_empty_text
             0%nat [(lit "text", PyStr [])] "No text provided in input JSON").
    + reflexivity.
    + left. split; [right; reflexivity | reflexivity].
  - apply (no_text_and_blank_text_errors nat json_load textstat stdin_blank_text
             0%nat [(lit "text", PyStr (lit "   "))] "Text cannot be empty").
    + reflexivity.
    + right. exists (lit "   ").
      split; [reflexivity | split; [discriminate | split; reflexivity]].
Defined.

(** Witness of C5: input that is not JSON. *)
Lemma malformed_input_error_witness :
  json_load stdin_not_json = inl JSONDecodeError /\
  run json_load textstat stdin_not_json 0%nat =
  (Exit 1, [PyDict [ (lit "error", PyStr (lit "Expecting value: line 1 column 1 (char 0)"));
                     (lit "type", PyStr (lit "JSONDecodeError")) ]]).
Proof.
  split; [reflexivity|].
  apply (malformed_input_error nat json_load textstat stdin_not_json 0%nat
           JSONDecodeError).
  reflexivity.
Defined.

(** Counterexample to C8 as stated: no call of the display is stored
    under two different keys.  The display has 19 entries and 18
    keys, the repeated entry being the same key with the same
    call. *)
Lemma no_metric_under_two_keys :
  ~ (exists k1 k2 m, k1 <> k2 /\ In (k1, m) metrics_display /\
                     In (k2, m) metrics_display) /\
  List.length metrics_display = 19%nat /\
  List.length (display_keys metrics_display []) = 18%nat /\
  nth_error metrics_display 6 = Some ("linsear_write_formula"%string, linsear_write_formula) /\
  nth_error metrics_display 9 = Some ("linsear_write_formula"%string, linsear_write_formula).
Proof.
  split; [|repeat split].
  intros (k1 & k2 & m & Hne & H1 & H2).
  apply Hne. exact (display_same_call_same_key k1 k2 m H1 H2).
Qed.

(** Witness of C8 as amended: the object without the key and the
    blank string. *)
Lemma same_error_type_and_repeated_entry_witness :
  (exists msg,
      run json_load textstat stdin_no_key 0%nat =
      (Exit 1, [PyDict [ (lit "error", PyStr msg);
                         (lit "type", PyStr (lit "ValueError")) ]])) /\
  (exists msg,
      run json_load textstat stdin_blank_text 0%nat =
      (Exit 1, [PyDict [ (lit "error", PyStr msg);
                         (lit "type", PyStr (lit "ValueError")) ]])).
Proof.
  split.
  - apply (same_error_type_and_repeated_entry nat json_load textstat stdin_no_key
             0%nat []); [reflexivity | left; reflexivity].
  - apply (same_error_type_and_repeated_entry nat json_load textstat
             stdin_blank_text 0%nat [(lit "text", PyStr (lit "   "))]);
      [reflexivity | right; exists (lit "   "); split; reflexivity].
Defined.

(** Witness of C10: the object without the key and each falsy value
    the claim lists. *)
Lemma falsy_text_error_witness :
  Forall (fun input =>
            run json_load textstat input 0%nat = (Exit 1, [no_text_envelope]) /\
            run_calls json_load textstat input 0%nat = [])
         [ stdin_no_key; stdin_null_text; stdin_empty_text; stdin_zero_text;
           stdin_false_text; stdin_array_text; stdin_object_text ].
Proof.
  repeat apply Forall_cons; [ | | | | | | | apply Forall_nil].
  - apply (falsy_text_error nat json_load textstat stdin_no_key 0%nat []);
      [reflexivity | left; reflexivity].
  - apply (falsy_text_error nat json_load textstat stdin_null_text 0%nat
             [(lit "text", PyNone)]);
      [reflexivity | right; exists PyNone; split; reflexivity].
  - apply (falsy_text_error nat json_load textstat stdin_empty_text 0%nat
             [(lit "text", PyStr [])]);
      [reflexivity | right; exists (PyStr []); split; reflexivity].
  - apply (falsy_text_error nat json_load textstat stdin_zero_text 0%nat
             [(lit "text", PyInt 0)]);
      [reflexivity | right; exists (PyInt 0); split; reflexivity].
  - apply (falsy_text_error nat json_load textstat stdin_false_text 0%nat
             [(lit "text", PyBool false)]);
      [reflexivity | right; exists (PyBool false); split; reflexivity].
  - apply (falsy_text_error nat json_load textstat stdin_array_text 0%nat
             [(lit "text", PyList [])]);
      [reflexivity | right; exists (PyList []); split; reflexivity].
  - apply (falsy_text_error nat json_load textstat stdin_object_text 0%nat
             [(lit "text", PyDict [])]);
      [reflexivity | right; exists (PyDict []); split; reflexivity].
Defined.

End Runs.


(* ===================================================================== *)
(** ** More sample runs *)
(* ===================================================================== *)

Module MoreRuns.
Import Sample.

(** The mapping written for the sample sentence with the stand-in
    library. *)
Definition fox_results : dict :=
  Eval vm_compute in
    match snd (run json_load textstat stdin_fox 0%nat) with
    | [PyDict r] => r
    | _ => []
    end.

(** The mapping written with the library that counts its calls. *)
Definition counting_results : dict :=
  Eval vm_compute in
    match snd (run json_load Counting.textstat stdin_fox 0%nat) with
    | [PyDict r] => r
    | _ => []
    end.

(** With the counting library the two calls of [linsear_write_formula]
    return 6 and 9, and 9 is written. *)
Example counting_run_keeps_nine :
  run json_load Counting.textstat stdin_fox 0%nat = (Exit 0, [PyDict counting_results]) /\
  List.map call_result
    (List.filter (fun c => if metric_eq_dec (call_metric c) linsear_write_formula
                           then true else false)
       (run_calls json_load Counting.textstat stdin_fox 0%nat)) =
  [inr (PyInt 6); inr (PyInt 9)] /\
  dict_get (lit "linsear_write_formula") counting_results = Some (PyInt 9).
Proof. repeat split. Qed.

(** Witness of X1: a JSON array. *)
Lemma non_object_input_error_witness :
  json_load stdin_array = inr (PyList [PyInt 1; PyInt 2]) /\
  run json_load textstat stdin_array 0%nat =
  (Exit 1, [PyDict [ (lit "error", PyStr (lit "'list' object has no attribute 'get'"));
                     (lit "type", PyStr (lit "AttributeError")) ]]) /\
  run_calls json_load textstat stdin_array 0%nat = [].
Proof.
  split; [reflexivity|].
  apply (non_object_input_error nat json_load textstat stdin_array 0%nat
           (PyList [PyInt 1; PyInt 2])); [reflexivity | discriminate].
Defined.

(** Witness of X2: the number 42 as [text]. *)
Lemma non_string_text_error_witness :
  json_load stdin_number_text = inr (PyDict [(lit "text", PyInt 42)]) /\
  run json_load textstat stdin_number_text 0%nat =
  (Exit 1, [PyDict [ (lit "error", PyStr (lit "'int' object has no attribute 'strip'"));
                     (lit "type", PyStr (lit "AttributeError")) ]]) /\
  run_calls json_load textstat stdin_number_text 0%nat = [].
Proof.
  split; [reflexivity|].
  apply (non_string_text_error nat json_load textstat stdin_number_text 0%nat
           [(lit "text", PyInt 42)] (PyInt 42));
    [reflexivity | reflexivity | reflexivity | discriminate].
Defined.

(** Witness of X4: the sample sentence reaches every call as it is. *)
Lemma calls_receive_text_unchanged_witness :
  json_load stdin_fox = inr (PyDict [(lit "text", PyStr (lit fox))]) /\
  Forall (fun c => call_text c = PyStr (lit fox))
         (run_calls json_load textstat stdin_fox 0%nat).
Proof.
  split; [reflexivity|].
  apply (calls_receive_text_unchanged nat json_load textstat stdin_fox 0%nat
           [(lit "text", PyStr (lit fox))]).
  reflexivity.
Defined.

(** Witness of X6: the run on the sample sentence. *)
Lemma emitted_values_come_from_their_calls_witness :
  run json_load textstat stdin_fox 0%nat = (Exit 0, [PyDict fox_results]) /\
  forall k v,
    In (k, v) fox_results ->
    exists name m,
      k = lit name /\ In (name, m) metrics_display /\
      In (mkCall m (PyStr (lit fox)) (inr v))
         (run_calls json_load textstat stdin_fox 0%nat).
Proof.
  split; [reflexivity|].
  apply (emitted_values_come_from_their_calls nat json_load textstat stdin_fox
           0%nat [(lit "text", PyStr (lit fox))] fox_results);
    reflexivity.
Defined.

(** Witness of X8: the object without the key and the object with the
    empty string. *)
Lemma only_text_field_matters_witness :
  text_field [] = text_field [(lit "text", PyStr [])] /\
  run json_load textstat stdin_no_key 0%nat =
  run json_load textstat stdin_empty_text 0%nat.
Proof.
  split; [reflexivity|].
  apply (only_text_field_matters nat json_load textstat stdin_no_key
           stdin_empty_text 0%nat [] [(lit "text", PyStr [])]);
    reflexivity.
Defined.

(** Witness of X10: the run with the counting library. *)
Lemma repeated_key_keeps_second_value_witness :
  run json_load Counting.textstat stdin_fox 0%nat = (Exit 0, [PyDict counting_results]) /\
  exists c v,
    nth_error (run_calls json_load Counting.textstat stdin_fox 0%nat) 9 = Some c /\
    call_metric c = linsear_write_formula /\
    call_result c = inr v /\
    dict_get (lit "linsear_write_formula") counting_results = Some v.
Proof.
  split; [reflexivity|].
  apply (repeated_key_keeps_second_value nat json_load Counting.textstat
           stdin_fox 0%nat counting_results).
  reflexivity.
Defined.

(** Witness of X11: the sample sentence, and the blank string. *)
Lemma library_called_iff_text_has_content_witness :
  (run_calls json_load textstat stdin_fox 0%nat <> [] <->
   exists t, text_field [(lit "text", PyStr (lit fox))] = PyStr t /\
             existsb (fun c => negb (isspace c)) t = true) /\
  (run_calls json_load textstat stdin_blank_text 0%nat <> [] <->
   exists t, text_field [(lit "text", PyStr (lit "   "))] = PyStr t /\
             existsb (fun c => negb (isspace c)) t = true).
Proof.
  split.
  - apply (library_called_iff_text_has_content nat json_load textstat stdin_fox
             0%nat [(lit "text", PyStr (lit fox))]).
    reflexivity.
  - apply (library_called_iff_text_has_content nat json_load textstat
             stdin_blank_text 0%nat [(lit "text", PyStr (lit "   "))]).
    reflexivity.
Defined.

End MoreRuns.
